(** * Calculator.jsx: the expression session of the calculator

    A shallow embedding of the state held by the [Calculator] component
    (src/src/Calculator.jsx) and of its event handlers, followed by the
    properties of the session state machine. *)

From Stdlib Require Import List String Ascii Arith NArith Bool Lia.
Import ListNotations.

Set Implicit Arguments.

(** ** JavaScript strings and values *)

(** A JavaScript string is a sequence of UTF-16 code units. *)
Definition codeUnit : Type := N.
Definition jsstring : Type := list codeUnit.

(** An ASCII literal of the source, as a JavaScript string. *)
Definition lit (s : string) : jsstring :=
  map N_of_ascii (list_ascii_of_string s).

(** The two display glyphs, U+00D7 and U+00F7; each is one code unit. *)
Definition times : codeUnit := 215%N.
Definition divide : codeUnit := 247%N.

Fixpoint jsstring_eqb (a b : jsstring) : bool :=
  match a, b with
  | [], [] => true
  | x :: a', y :: b' => N.eqb x y && jsstring_eqb a' b'
  | _, _ => false
  end.

(** What an array slot can hold here: a string, or [undefined] when the
    slot was filled from an index past the end of another array. *)
Inductive jsvalue : Type :=
| undefined
| str (s : jsstring).

(** [a[i]] on an array of strings. *)
Definition index (a : list jsstring) (i : nat) : jsvalue :=
  match nth_error a i with
  | Some x => str x
  | None => undefined
  end.

(** [Array.prototype.join] turns [undefined] into the empty string. *)
Definition joinString (v : jsvalue) : jsstring :=
  match v with
  | undefined => []
  | str s => s
  end.

(** [s.replaceAll(/c/g, by)] for a pattern that is one literal code unit. *)
Definition replaceAll (c : codeUnit) (by_ : jsstring) (s : jsstring) : jsstring :=
  flat_map (fun x => if N.eqb x c then by_ else [x]) s.

(** [s.match(/[...]/g)] used as a condition: some code unit is in the class. *)
Definition matches (class : codeUnit -> bool) (s : jsstring) : bool :=
  existsb class s.

Definition oneOf (cs : string) (x : codeUnit) : bool :=
  existsb (N.eqb x) (lit cs).

Definition inRange (lo hi : ascii) (x : codeUnit) : bool :=
  (N.leb (N_of_ascii lo) x && N.leb x (N_of_ascii hi))%bool.

(** [[A-Za-z]] *)
Definition isLetter (x : codeUnit) : bool :=
  inRange "A" "Z" x || inRange "a" "z" x.

(** [[/(/)]] *)
Definition isSlashOrParen (x : codeUnit) : bool := oneOf "/(/)" x.

(** [[/*/+]] *)
Definition isSlashStarPlus (x : codeUnit) : bool := oneOf "/*/+" x.

(** [[\d./-]] *)
Definition isDigitDotSlashMinus (x : codeUnit) : bool :=
  inRange "0" "9" x || oneOf "./-" x.

(** ** The evaluator *)

(** How [math.evaluate(e).toString()] completes inside the [try] block:
    with the result string, or with an exception carrying a message. *)
Inductive Completion : Type :=
| Returned (value : jsstring)
| Thrown (message : jsstring).

(** A stand-in for math.js that agrees with it on the expressions used in
    the examples below. *)
Definition sampleEvaluate (e : jsstring) : Completion :=
  if jsstring_eqb e (lit "2+2") then Returned (lit "4")
  else if jsstring_eqb e (lit "1.5*(2+3)") then Returned (lit "7.5")
  else if jsstring_eqb e (lit "1/0") then Returned (lit "Infinity")
  else if jsstring_eqb e (lit "1") then Returned (lit "1")
  else if jsstring_eqb e (lit "1+")
       then Thrown (lit "Unexpected end of expression (char 3)")
  else Thrown (lit "Unexpected end of expression (char 1)").

(** A second stand-in: it throws as the first does on 1+ and returns its
    input unchanged on everything else. *)
Definition otherEvaluate (e : jsstring) : Completion :=
  if jsstring_eqb e (lit "1+")
  then Thrown (lit "Unexpected end of expression (char 3)")
  else Returned e.

(** ** The state of the component *)

(** The object held by [useState({expression: [], result: [], needsReset: false})]. *)
Record ExpressionAndResult : Type := {
  expression : list jsvalue;
  result : list jsstring;
  needsReset : bool
}.

(** The three [useState] cells of [Calculator]; [None] is [null]. *)
Record Session : Type := {
  expressionAndResult : ExpressionAndResult;
  resultIsError : bool;
  previousNonErrorResult : option jsstring
}.

Definition initialSession : Session :=
  {| expressionAndResult := {| expression := []; result := []; needsReset := false |};
     resultIsError := false;
     previousNonErrorResult := None |}.

Definition setExpressionAndResult (v : ExpressionAndResult) (s : Session) : Session :=
  {| expressionAndResult := v;
     resultIsError := resultIsError s;
     previousNonErrorResult := previousNonErrorResult s |}.

Definition setResultIsError (b : bool) (s : Session) : Session :=
  {| expressionAndResult := expressionAndResult s;
     resultIsError := b;
     previousNonErrorResult := previousNonErrorResult s |}.

Definition setPreviousNonErrorResult (r : jsstring) (s : Session) : Session :=
  {| expressionAndResult := expressionAndResult s;
     resultIsError := resultIsError s;
     previousNonErrorResult := Some r |}.

(** ** The handlers

    Every handler reads the cells of the render it was created in and
    queues its updates; [s] is that render's state and the value is the
    state of the next render. *)

Definition resetExpression (newExpression : list jsvalue) (s : Session) : Session :=
  setResultIsError false
    (setExpressionAndResult
       {| expression := newExpression; result := []; needsReset := false |} s).

Definition handleNumberInput (num : jsstring) (s : Session) : Session :=
  if needsReset (expressionAndResult s)
  then resetExpression [str num] s
  else setExpressionAndResult
         {| expression := expression (expressionAndResult s) ++ [str num];
            result := []; needsReset := false |} s.

(** [previousNonErrorResult !== null ? previousNonErrorResult
      : expressionAndResult.result[1]] *)
Definition resumeValue (s : Session) : jsvalue :=
  match previousNonErrorResult s with
  | Some r => str r
  | None => index (result (expressionAndResult s)) 1
  end.

Definition handleOperationInput (op : jsstring) (s : Session) : Session :=
  if needsReset (expressionAndResult s)
  then resetExpression [resumeValue s; str op] s
  else setExpressionAndResult
         {| expression := expression (expressionAndResult s) ++ [str op];
            result := []; needsReset := false |} s.

Definition clearInput (s : Session) : Session :=
  setResultIsError false
    (setExpressionAndResult
       {| expression := []; result := []; needsReset := false |} s).

(** [expression.slice(0, -1)] is [removelast]; it is [[]] on [[]]. *)
Definition backspace (s : Session) : Session :=
  setExpressionAndResult
    {| expression := removelast (expression (expressionAndResult s));
       result := []; needsReset := false |} s.

Definition parseExpression (expression : list jsvalue) : jsstring :=
  List.concat (map joinString expression).

(** The string handed to [math.evaluate]. *)
Definition expressionParsed (s : Session) : jsstring :=
  replaceAll divide (lit "/")
    (replaceAll times (lit "*")
       (parseExpression (expression (expressionAndResult s)))).

Definition resultDisplay (resultOfComputation : jsstring) : jsstring :=
  if matches isLetter resultOfComputation
  then lit "\text{" ++ resultOfComputation ++ lit "}"
  else resultOfComputation.

Section Calculator.

(** [fun e => math.evaluate(e).toString()], a black box. *)
Variable evaluate : jsstring -> Completion.

Definition computeExpression (s : Session) : Session :=
  match evaluate (expressionParsed s) with
  | Thrown message =>
      setExpressionAndResult
        {| expression := expression (expressionAndResult s);
           result := [lit "Error: " ++ message];
           needsReset := true |}
        (setResultIsError true s)
  | Returned resultOfComputation =>
      setPreviousNonErrorResult resultOfComputation
        (setExpressionAndResult
           {| expression := expression (expressionAndResult s);
              result := [lit "="; resultDisplay resultOfComputation];
              needsReset := true |} s)
  end.

(** The [keydown] listener; [shiftKey] and [key] are the fields of the event. *)
Definition keyDownHandler (shiftKey : bool) (key : jsstring) (s : Session) : Session :=
  if shiftKey then
    if matches isSlashOrParen key then handleNumberInput key s
    else if matches isSlashStarPlus key then
      if jsstring_eqb key (lit "*") then handleOperationInput [times] s
      else handleOperationInput key s
    else s
  else if matches isDigitDotSlashMinus key then
    if jsstring_eqb key (lit "/") then handleOperationInput [divide] s
    else if jsstring_eqb key (lit "-") then handleOperationInput key s
    else handleNumberInput key s
  else if jsstring_eqb key (lit "Backspace") || jsstring_eqb key (lit "Delete") then
    backspace s
  else if jsstring_eqb key (lit "=") then computeExpression s
  else s.

(** The keypad, in the order of the JSX. *)
Inductive Button : Type :=
| BtnOpen | BtnClose | BtnBackspace | BtnAC
| Btn1 | Btn2 | Btn3 | BtnPlus
| Btn4 | Btn5 | Btn6 | BtnMinus
| Btn7 | Btn8 | Btn9 | BtnTimes
| Btn0 | BtnPoint | BtnEquals | BtnDivide.

(** The [onClick] of each button; an [InputButton] passes its [char]. *)
Definition onClick (b : Button) (s : Session) : Session :=
  match b with
  | BtnOpen => handleOperationInput (lit "(") s
  | BtnClose => handleOperationInput (lit ")") s
  | BtnBackspace => backspace s
  | BtnAC => clearInput s
  | Btn1 => handleNumberInput (lit "1") s
  | Btn2 => handleNumberInput (lit "2") s
  | Btn3 => handleNumberInput (lit "3") s
  | BtnPlus => handleOperationInput (lit "+") s
  | Btn4 => handleNumberInput (lit "4") s
  | Btn5 => handleNumberInput (lit "5") s
  | Btn6 => handleNumberInput (lit "6") s
  | BtnMinus => handleOperationInput (lit "-") s
  | Btn7 => handleNumberInput (lit "7") s
  | Btn8 => handleNumberInput (lit "8") s
  | Btn9 => handleNumberInput (lit "9") s
  | BtnTimes => handleOperationInput [times] s
  | Btn0 => handleNumberInput (lit "0") s
  | BtnPoint => handleNumberInput (lit ".") s
  | BtnEquals => computeExpression s
  | BtnDivide => handleOperationInput [divide] s
  end.

(** The [expression] prop of [DisplayArea]. *)
Definition displayExpression (s : Session) : jsstring :=
  match expression (expressionAndResult s) with
  | [] => []
  | e => parseExpression e
  end.

(** The [result] prop of [DisplayArea]. *)
Definition displayResult (s : Session) : jsstring :=
  match result (expressionAndResult s) with
  | [] => []
  | r => parseExpression (map str r)
  end.

(** ** The session as a state machine *)

(** The five operations on the session. *)
Inductive Action : Type :=
| NumberInput (num : jsstring)
| OperationInput (op : jsstring)
| Backspace
| ClearInput
| ComputeExpression.

Definition step (s : Session) (a : Action) : Session :=
  match a with
  | NumberInput num => handleNumberInput num s
  | OperationInput op => handleOperationInput op s
  | Backspace => backspace s
  | ClearInput => clearInput s
  | ComputeExpression => computeExpression s
  end.

Definition run (s : Session) (actions : list Action) : Session :=
  fold_left step actions s.

Inductive reachable : Session -> Prop :=
| reachable_initial : reachable initialSession
| reachable_step s a : reachable s -> reachable (step s a).

(** The two appending operations, and the text each one was given. *)
Definition isAppend (a : Action) : bool :=
  match a with
  | NumberInput _ | OperationInput _ => true
  | _ => false
  end.

Definition appendedText (a : Action) : jsstring :=
  match a with
  | NumberInput x | OperationInput x => x
  | _ => []
  end.

(** One pass over the string doing what the two [replaceAll] calls do. *)
Definition translateGlyph (x : codeUnit) : codeUnit :=
  if N.eqb x times then N_of_ascii "*"
  else if N.eqb x divide then N_of_ascii "/"
  else x.

(** ** The display and the events *)

(** What [DisplayArea] hands to its two [KaTeXDisplay] children, and the
    colour class of the result line. *)
Record DisplayAreaView : Type := {
  expressionLine : jsstring;
  resultLine : jsstring;
  resultColor : jsstring
}.

Definition DisplayArea (expression_ result_ : jsstring) (isError : bool) : DisplayAreaView :=
  {| expressionLine := expression_;
     resultLine := if isError then lit "\text{" ++ result_ ++ lit "}" else result_;
     resultColor := if isError then lit "text-red-700" else lit "text-gray-600" |}.

(** The [DisplayArea] element of the component's JSX. *)
Definition render (s : Session) : DisplayAreaView :=
  DisplayArea (displayExpression s) (displayResult s) (resultIsError s).

(** What the user can do: click a keypad button or press a key. *)
Inductive Event : Type :=
| Click (b : Button)
| KeyDown (shiftKey : bool) (key : jsstring).

Definition handleEvent (s : Session) (e : Event) : Session :=
  match e with
  | Click b => onClick b s
  | KeyDown shiftKey key => keyDownHandler shiftKey key s
  end.

Inductive uiReachable : Session -> Prop :=
| uiReachable_initial : uiReachable initialSession
| uiReachable_event s e : uiReachable s -> uiReachable (handleEvent s e).

Definition isString (v : jsvalue) : bool :=
  match v with
  | str _ => true
  | undefined => false
  end.

Definition isBackspace (a : Action) : bool :=
  match a with
  | Backspace => true
  | _ => false
  end.

Definition isComputeExpression (a : Action) : bool :=
  match a with
  | ComputeExpression => true
  | _ => false
  end.

End Calculator.

(** ** Properties of the handlers *)

Section Properties.

Variable evaluate : jsstring -> Completion.

Local Abbreviation tokens s := (expression (expressionAndResult s)).
Local Abbreviation resultTokens s := (result (expressionAndResult s)).
Local Abbreviation inResultMode s := (needsReset (expressionAndResult s)).

Ltac handlers :=
  unfold step, handleNumberInput, handleOperationInput, clearInput, backspace,
    computeExpression, resetExpression, setPreviousNonErrorResult,
    setResultIsError, setExpressionAndResult in *.

Lemma tokens_computeExpression s :
  tokens (computeExpression evaluate s) = tokens s.
Proof.
  handlers. destruct (evaluate (expressionParsed s)); reflexivity.
Qed.

Lemma expressionParsed_computeExpression s :
  expressionParsed (computeExpression evaluate s) = expressionParsed s.
Proof.
  unfold expressionParsed. now rewrite tokens_computeExpression.
Qed.

Lemma inResultMode_step s a :
  inResultMode (step evaluate s a) =
  match a with ComputeExpression => true | _ => false end.
Proof.
  destruct a; handlers; simpl;
    try (destruct (inResultMode s); reflexivity); try reflexivity.
  destruct (evaluate (expressionParsed s)); reflexivity.
Qed.

Lemma resultTokens_step s a :
  resultTokens (step evaluate s a) =
  match a with
  | ComputeExpression =>
      match evaluate (expressionParsed s) with
      | Returned r => [lit "="; resultDisplay r]
      | Thrown message => [lit "Error: " ++ message]
      end
  | _ => []
  end.
Proof.
  destruct a; handlers; simpl;
    try (destruct (inResultMode s); reflexivity); try reflexivity.
  destruct (evaluate (expressionParsed s)); reflexivity.
Qed.

Lemma reachable_run s actions :
  reachable evaluate s -> reachable evaluate (run evaluate s actions).
Proof.
  revert s. induction actions as [|a actions IH]; intros s H; simpl.
  - exact H.
  - apply IH. now constructor.
Qed.

(** A state in result mode was produced by [computeExpression]. *)
Lemma reachable_inResultMode s :
  reachable evaluate s -> inResultMode s = true ->
  exists s0, reachable evaluate s0 /\ s = computeExpression evaluate s0.
Proof.
  intros H. destruct H as [|s0 a H0]; intros Hmode.
  - discriminate.
  - rewrite inResultMode_step in Hmode.
    destruct a; try discriminate. exists s0. now split.
Qed.

Lemma displayExpression_parse s :
  displayExpression s = parseExpression (tokens s).
Proof.
  unfold displayExpression. now destruct (tokens s).
Qed.

Lemma run_appends actions : forall s,
  forallb isAppend actions = true -> inResultMode s = false ->
  tokens (run evaluate s actions) =
  tokens s ++ map (fun a => str (appendedText a)) actions.
Proof.
  induction actions as [|a actions IH]; intros s Hall Hmode; simpl.
  - now rewrite app_nil_r.
  - simpl in Hall. apply andb_prop in Hall as [Ha Hall].
    rewrite IH; [|exact Hall|rewrite inResultMode_step; now destruct a].
    destruct a; try discriminate; handlers; rewrite Hmode; simpl;
      now rewrite <- app_assoc.
Qed.

Lemma replaceAll_one c d s :
  replaceAll c [d] s = map (fun x => if N.eqb x c then d else x) s.
Proof.
  unfold replaceAll. induction s as [|x s IH]; simpl.
  - reflexivity.
  - rewrite IH. now destruct (N.eqb x c).
Qed.

Lemma expressionParsed_translate s :
  expressionParsed s = map translateGlyph (List.concat (map joinString (tokens s))).
Proof.
  unfold expressionParsed, parseExpression.
  change (lit "/") with [N_of_ascii "/"]. change (lit "*") with [N_of_ascii "*"].
  rewrite !replaceAll_one, map_map. apply map_ext. intros x.
  unfold translateGlyph. destruct (N.eqb x times) eqn:Ht.
  - reflexivity.
  - reflexivity.
Qed.

(** ** The claims *)

(** C1 (the defect): [backspace] leaves [resultIsError] as it was. After a
    failed evaluation followed by Backspace the flag is still true although
    [result] is empty, and a later successful evaluation is still flagged
    as an error. *)
Theorem backspace_keeps_resultIsError s message r :
  evaluate (expressionParsed s) = Thrown message ->
  evaluate (expressionParsed (backspace (computeExpression evaluate s))) = Returned r ->
  let s1 := backspace (computeExpression evaluate s) in
  let s2 := computeExpression evaluate s1 in
  (resultIsError s1 = true /\ resultTokens s1 = []) /\
  (resultIsError s2 = true /\ resultTokens s2 = [lit "="; resultDisplay r]).
Proof.
  intros Hfail Hok s1 s2.
  assert (H1 : resultIsError s1 = true /\ resultTokens s1 = []).
  { subst s1. handlers. rewrite Hfail. now split. }
  split; [exact H1|]. destruct H1 as [H1 _].
  subst s2. unfold computeExpression. fold s1 in Hok. rewrite Hok.
  simpl. now split.
Qed.

(** C2: when the evaluator throws, [computeExpression] stores the one-string
    payload made of ["Error: "] and the evaluator's message, sets
    [resultIsError] and [needsReset], and keeps [expression] as it was. *)
Theorem computeExpression_failure s message :
  evaluate (expressionParsed s) = Thrown message ->
  let s' := computeExpression evaluate s in
  resultTokens s' = [lit "Error: " ++ message] /\
  resultTokens s' <> [] /\
  resultIsError s' = true /\
  inResultMode s' = true /\
  tokens s' = tokens s.
Proof.
  intros Hfail s'. subst s'. handlers. rewrite Hfail. simpl.
  repeat split. discriminate.
Qed.

(** C3 (the defect): in a reachable state in result mode where no
    evaluation has succeeded yet, [result] is the one-string error payload,
    so [result[1]] is [undefined] and an operator input stores
    [[undefined, op]]. *)
Theorem operator_after_first_failure s op :
  reachable evaluate s ->
  inResultMode s = true ->
  previousNonErrorResult s = None ->
  List.length (resultTokens s) = 1 /\
  resumeValue s = undefined /\
  tokens (handleOperationInput op s) = [undefined; str op].
Proof.
  intros Hreach Hmode Hprev.
  destruct (reachable_inResultMode Hreach Hmode) as (s0 & _ & ->).
  unfold handleOperationInput, resumeValue. rewrite Hmode, Hprev.
  revert Hprev. handlers.
  destruct (evaluate (expressionParsed s0)); simpl; intros Hprev.
  - discriminate.
  - repeat split.
Qed.

(** C4: [previousNonErrorResult] after one operation is the raw result
    string when the operation is an evaluation that succeeded, and is the
    value it had before in every other case. *)
Theorem previousNonErrorResult_step s a :
  previousNonErrorResult (step evaluate s a) =
  match a with
  | ComputeExpression =>
      match evaluate (expressionParsed s) with
      | Returned resultOfComputation => Some resultOfComputation
      | Thrown _ => previousNonErrorResult s
      end
  | _ => previousNonErrorResult s
  end.
Proof.
  destruct a; handlers; simpl;
    try (destruct (inResultMode s); reflexivity); try reflexivity.
  destruct (evaluate (expressionParsed s)); reflexivity.
Qed.

(** C5: with an evaluator that computes 2+2 as 4, the inputs 2, +, 2, =
    from the initial session show the result 4, and a following + starts
    the expression ["4", "+"] with an empty result, out of result mode. *)
Theorem operator_after_success_resumes :
  evaluate (lit "2+2") = Returned (lit "4") ->
  let s := run evaluate initialSession
             [NumberInput (lit "2"); OperationInput (lit "+");
              NumberInput (lit "2"); ComputeExpression] in
  let s' := step evaluate s (OperationInput (lit "+")) in
  (resultTokens s = [lit "="; lit "4"] /\ displayResult s = lit "=4" /\
   previousNonErrorResult s = Some (lit "4")) /\
  (tokens s' = [str (lit "4"); str (lit "+")] /\
   resultTokens s' = [] /\ inResultMode s' = false).
Proof.
  intros Heval s s'. subst s'. subst s. unfold run. simpl fold_left.
  unfold step at 1 2. unfold computeExpression.
  replace (expressionParsed _) with (lit "2+2") by reflexivity.
  rewrite Heval. repeat split.
Qed.

(** C6: in every reachable state [needsReset] is true exactly when
    [result] is non-empty; an evaluation, whether it succeeds or fails,
    sets [needsReset] and stores a non-empty [result], and every other
    operation clears both. *)
Theorem needsReset_iff_result_nonempty s :
  reachable evaluate s ->
  (inResultMode s = true <-> resultTokens s <> []) /\
  (forall s0 a,
     match a with
     | ComputeExpression =>
         inResultMode (step evaluate s0 a) = true /\
         resultTokens (step evaluate s0 a) <> []
     | _ =>
         inResultMode (step evaluate s0 a) = false /\
         resultTokens (step evaluate s0 a) = []
     end).
Proof.
  assert (Hstep : forall s0 a,
     match a with
     | ComputeExpression =>
         inResultMode (step evaluate s0 a) = true /\
         resultTokens (step evaluate s0 a) <> []
     | _ =>
         inResultMode (step evaluate s0 a) = false /\
         resultTokens (step evaluate s0 a) = []
     end).
  { intros s0 a. pose proof (inResultMode_step s0 a) as Hm.
    pose proof (resultTokens_step s0 a) as Hr.
    destruct a; try (split; assumption).
    split; [assumption|]. rewrite Hr.
    destruct (evaluate (expressionParsed s0)); discriminate. }
  intros Hreach. split; [|exact Hstep].
  destruct Hreach as [|s0 a _].
  - simpl. split; [discriminate|congruence].
  - specialize (Hstep s0 a). destruct a; destruct Hstep as [Hm Hr];
      rewrite Hm, ?Hr; split; congruence.
Qed.

(** C8: after any sequence of digit and operator inputs from the initial
    session, the expression line is the concatenation of the inputs in
    the order they were entered. *)
Theorem displayExpression_appends actions :
  forallb isAppend actions = true ->
  displayExpression (run evaluate initialSession actions) =
  List.concat (map appendedText actions).
Proof.
  intros Hall. rewrite displayExpression_parse, run_appends by easy.
  simpl. unfold parseExpression. rewrite map_map. reflexivity.
Qed.

(** C9 (amended): in every reachable state [result] is empty, or the two
    strings ["="] and the display form of what the evaluator returned on
    the current expression, or the single string made of ["Error: "]
    followed by the message the evaluator threw on the current expression. *)
Theorem resultTokens_shape s :
  reachable evaluate s ->
  resultTokens s = [] \/
  (exists r, evaluate (expressionParsed s) = Returned r /\
             resultTokens s = [lit "="; resultDisplay r]) \/
  (exists message, evaluate (expressionParsed s) = Thrown message /\
                   resultTokens s = [lit "Error: " ++ message]).
Proof.
  intros Hreach. destruct Hreach as [|s0 a _].
  - now left.
  - pose proof (resultTokens_step s0 a) as Hr.
    destruct a; try (now left).
    right. simpl step in *. rewrite expressionParsed_computeExpression.
    destruct (evaluate (expressionParsed s0)) as [r|message] eqn:He.
    + left. now exists r.
    + right. now exists message.
Qed.

(** C10: the keypad parentheses call [handleOperationInput] and the
    keyboard parentheses call [handleNumberInput]; in result mode the
    keypad ["("] stores [[resumeValue, "("]] and the keyboard ["("] stores
    [["("]]. *)
Theorem parenthesis_keypad_and_keyboard s :
  inResultMode s = true ->
  (onClick evaluate BtnOpen s = handleOperationInput (lit "(") s /\
   onClick evaluate BtnClose s = handleOperationInput (lit ")") s /\
   keyDownHandler evaluate true (lit "(") s = handleNumberInput (lit "(") s /\
   keyDownHandler evaluate true (lit ")") s = handleNumberInput (lit ")") s) /\
  (tokens (onClick evaluate BtnOpen s) = [resumeValue s; str (lit "(")] /\
   tokens (keyDownHandler evaluate true (lit "(") s) = [str (lit "(")]).
Proof.
  intros Hmode.
  assert (Hk : keyDownHandler evaluate true (lit "(") s = handleNumberInput (lit "(") s)
    by reflexivity.
  repeat split; try reflexivity; rewrite ?Hk; simpl onClick;
    handlers; rewrite Hmode; reflexivity.
Qed.

(** ** Further properties of the handlers *)

Lemma jsstring_eqb_eq a : forall b, jsstring_eqb a b = true <-> a = b.
Proof.
  induction a as [|x a IH]; intros [|y b]; simpl; split; intros H;
    try reflexivity; try discriminate.
  - apply andb_prop in H as [Hx Hab]. apply N.eqb_eq in Hx.
    apply IH in Hab. congruence.
  - injection H as -> ->. rewrite N.eqb_refl. now apply IH.
Qed.

Lemma reachable_composing_result s :
  reachable evaluate s -> inResultMode s = false -> resultTokens s = [].
Proof.
  intros H. destruct H as [|s0 a _]; intros Hmode.
  - reflexivity.
  - rewrite inResultMode_step in Hmode. rewrite resultTokens_step.
    destruct a; try reflexivity. discriminate.
Qed.

Lemma run_snoc s actions a :
  run evaluate s (actions ++ [a]) = step evaluate (run evaluate s actions) a.
Proof.
  unfold run. now rewrite fold_left_app.
Qed.

Lemma forallb_removelast (A : Type) (f : A -> bool) (l : list A) :
  forallb f l = true -> forallb f (removelast l) = true.
Proof.
  induction l as [|x [|y l] IH]; simpl; intros H; try reflexivity.
  apply andb_prop in H as [Hx H]. rewrite Hx. simpl. now apply IH.
Qed.

Lemma tl_removelast (A : Type) (l : list A) :
  tl (removelast l) = removelast (tl l).
Proof.
  destruct l as [|x [|y l]]; reflexivity.
Qed.

Lemma previousNonErrorResult_run s actions :
  forallb (fun a => negb (isComputeExpression a)) actions = true ->
  previousNonErrorResult (run evaluate s actions) = previousNonErrorResult s.
Proof.
  revert s. induction actions as [|a actions IH]; intros s Hall; simpl.
  - reflexivity.
  - simpl in Hall. apply andb_prop in Hall as [Ha Hall]. rewrite (IH _ Hall).
    destruct a; try discriminate; handlers;
      try (destruct (inResultMode s); reflexivity); reflexivity.
Qed.

(** X1: in a reachable state that is not in result mode, Backspace right
    after a digit or operator input gives back the very state from before
    the input. *)
Theorem backspace_undoes_append s x :
  reachable evaluate s ->
  inResultMode s = false ->
  backspace (handleNumberInput x s) = s /\
  backspace (handleOperationInput x s) = s.
Proof.
  intros Hreach Hmode.
  pose proof (reachable_composing_result Hreach Hmode) as Hres.
  destruct s as [[e r n] f p]. simpl in Hmode, Hres. subst.
  handlers. simpl. now rewrite removelast_last.
Qed.

(** X2: [n] Backspaces in a row leave the first [length - n] tokens, none
    when [n] is at least the length (Backspace on an empty expression
    keeps it empty). *)
Theorem backspace_repeat n : forall s,
  tokens (run evaluate s (repeat Backspace n)) =
  firstn (List.length (tokens s) - n) (tokens s).
Proof.
  induction n as [|n IH]; intros s; simpl.
  - now rewrite Nat.sub_0_r, firstn_all.
  - rewrite IH. simpl. destruct (tokens s) as [|t l] eqn:Hl.
    + reflexivity.
    + rewrite <- Hl.
      assert (Hlen : List.length (removelast (tokens s)) = List.length (tokens s) - 1).
      { rewrite removelast_firstn_len, length_firstn. lia. }
      rewrite Hlen.
      replace (List.length (tokens s) - 1 - n) with (List.length (tokens s) - S n) by lia.
      apply firstn_removelast. rewrite Hl. simpl. lia.
Qed.

(** X3: evaluating twice in a row is the same as evaluating once. *)
Theorem computeExpression_idempotent s :
  computeExpression evaluate (computeExpression evaluate s) =
  computeExpression evaluate s.
Proof.
  unfold computeExpression at 1. rewrite expressionParsed_computeExpression.
  unfold computeExpression.
  destruct (evaluate (expressionParsed s)); reflexivity.
Qed.

(** X4: in every reachable state, when [result] is a single string (the
    error payload) [resultIsError] is true, and the string is ["Error: "]
    followed by what the evaluator threw on the current expression. *)
Theorem error_payload_sets_resultIsError s :
  reachable evaluate s ->
  List.length (resultTokens s) = 1 ->
  resultIsError s = true /\
  exists message, evaluate (expressionParsed s) = Thrown message /\
                  resultTokens s = [lit "Error: " ++ message].
Proof.
  intros H. destruct H as [|s0 a _]; intros Hlen.
  - discriminate.
  - rewrite resultTokens_step in Hlen. destruct a; try discriminate.
    simpl step in *. rewrite expressionParsed_computeExpression.
    unfold computeExpression.
    destruct (evaluate (expressionParsed s0)) as [r|message]; try discriminate.
    split; [reflexivity|]. now exists message.
Qed.

(** X5: in every reachable state only the first token can be [undefined];
    all the tokens after it are strings. *)
Theorem undefined_only_first s :
  reachable evaluate s -> forallb isString (tl (tokens s)) = true.
Proof.
  induction 1 as [|s a _ IH].
  - reflexivity.
  - destruct a; handlers; simpl.
    + destruct (inResultMode s); simpl; [reflexivity|].
      destruct (tokens s); simpl in *; [reflexivity|].
      rewrite forallb_app, IH. reflexivity.
    + destruct (inResultMode s); simpl; [reflexivity|].
      destruct (tokens s); simpl in *; [reflexivity|].
      rewrite forallb_app, IH. reflexivity.
    + rewrite tl_removelast. now apply forallb_removelast.
    + reflexivity.
    + destruct (evaluate (expressionParsed s)); exact IH.
Qed.

Lemma keyDownHandler_cases shiftKey key s :
  keyDownHandler evaluate shiftKey key s = s \/
  (exists x, keyDownHandler evaluate shiftKey key s = handleNumberInput x s) \/
  (exists x, keyDownHandler evaluate shiftKey key s = handleOperationInput x s) \/
  keyDownHandler evaluate shiftKey key s = backspace s \/
  keyDownHandler evaluate shiftKey key s = computeExpression evaluate s.
Proof.
  unfold keyDownHandler.
  destruct shiftKey.
  - destruct (matches isSlashOrParen key); [right; left; now exists key|].
    destruct (matches isSlashStarPlus key); [|now left].
    right; right; left.
    destruct (jsstring_eqb key (lit "*")); eexists; reflexivity.
  - destruct (matches isDigitDotSlashMinus key).
    + destruct (jsstring_eqb key (lit "/")); [right; right; left; eexists; reflexivity|].
      destruct (jsstring_eqb key (lit "-")); [right; right; left; eexists; reflexivity|].
      right; left. now exists key.
    + destruct (jsstring_eqb key (lit "Backspace") || jsstring_eqb key (lit "Delete"));
        [now (right; right; right; left)|].
      destruct (jsstring_eqb key (lit "=")); [now (right; right; right; right)|now left].
Qed.

Lemma handleEvent_cases s e :
  handleEvent evaluate s e = s \/ exists a, handleEvent evaluate s e = step evaluate s a.
Proof.
  destruct e as [b|shiftKey key]; simpl.
  - right. destruct b; simpl;
      first [ now (eexists (NumberInput _))
            | now (eexists (OperationInput _))
            | now (exists Backspace)
            | now (exists ClearInput)
            | now (exists ComputeExpression) ].
  - destruct (keyDownHandler_cases shiftKey key s)
      as [H | [[x H] | [[x H] | [H | H]]]]; rewrite H.
    + now left.
    + right. now exists (NumberInput x).
    + right. now exists (OperationInput x).
    + right. now exists Backspace.
    + right. now exists ComputeExpression.
Qed.

(** X6: in a session where Backspace is never used, [resultIsError] is
    true exactly when [result] is the error payload for the current
    expression. *)
Theorem resultIsError_exact_without_backspace actions :
  forallb (fun a => negb (isBackspace a)) actions = true ->
  let s := run evaluate initialSession actions in
  resultIsError s = true <->
  exists message, evaluate (expressionParsed s) = Thrown message /\
                  resultTokens s = [lit "Error: " ++ message].
Proof.
  induction actions as [|a actions IH] using rev_ind; intros Hall s.
  - subst s. simpl. split; [discriminate|]. intros (m & _ & H). discriminate.
  - rewrite forallb_app in Hall. apply andb_prop in Hall as [Hall Ha].
    specialize (IH Hall). simpl in IH, Ha. subst s. rewrite run_snoc.
    assert (Hreach : reachable evaluate (run evaluate initialSession actions))
      by apply reachable_run, reachable_initial.
    pose proof (reachable_composing_result Hreach) as Hcomp.
    set (t := run evaluate initialSession actions) in *.
    assert (Hflag : inResultMode t = false -> resultIsError t = false).
    { intros Hmode. destruct (resultIsError t); [|reflexivity].
      destruct (proj1 IH eq_refl) as (m & _ & Hr).
      rewrite (Hcomp Hmode) in Hr. discriminate. }
    destruct a; try discriminate; simpl step.
    + unfold handleNumberInput. destruct (inResultMode t) eqn:Hmode; handlers; simpl.
      * split; [discriminate|]. intros (m & _ & H). discriminate.
      * rewrite (Hflag eq_refl). split; [discriminate|]. intros (m & _ & H). discriminate.
    + unfold handleOperationInput. destruct (inResultMode t) eqn:Hmode; handlers; simpl.
      * split; [discriminate|]. intros (m & _ & H). discriminate.
      * rewrite (Hflag eq_refl). split; [discriminate|]. intros (m & _ & H). discriminate.
    + handlers. simpl. split; [discriminate|]. intros (m & _ & H). discriminate.
    + rewrite expressionParsed_computeExpression. unfold computeExpression.
      destruct (evaluate (expressionParsed t)) as [r|message] eqn:He; handlers; simpl.
      * split; [|intros (m & H & _); discriminate].
        intros Hf. destruct (proj1 IH Hf) as (m & Hthrown & _). congruence.
      * split; [|reflexivity]. intros _. now exists message.
Qed.

(** X7: the string handed to the evaluator holds neither display glyph,
    and has as many code units as the joined expression. *)
Theorem expressionParsed_has_no_glyph s :
  ~ In times (expressionParsed s) /\
  ~ In divide (expressionParsed s) /\
  List.length (expressionParsed s) = List.length (parseExpression (tokens s)).
Proof.
  rewrite expressionParsed_translate. fold (parseExpression (tokens s)).
  assert (H : forall g, g = times \/ g = divide -> forall x, translateGlyph x <> g).
  { intros g Hg x. unfold translateGlyph.
    destruct (N.eqb x times) eqn:Ht; [destruct Hg; subst; discriminate|].
    destruct (N.eqb x divide) eqn:Hd; [destruct Hg; subst; discriminate|].
    apply N.eqb_neq in Ht, Hd. destruct Hg; subst; assumption. }
  repeat split.
  - intros Hin. apply in_map_iff in Hin as (x & Hx & _). revert Hx. apply H. now left.
  - intros Hin. apply in_map_iff in Hin as (x & Hx & _). revert Hx. apply H. now right.
  - apply length_map.
Qed.

(** X8: every state the keypad and the keyboard can produce is reachable
    by the five session operations. *)
Theorem uiReachable_reachable s :
  uiReachable evaluate s -> reachable evaluate s.
Proof.
  induction 1 as [|s e _ IH].
  - constructor.
  - destruct (handleEvent_cases s e) as [H | [a H]]; rewrite H.
    + exact IH.
    + now constructor.
Qed.

(** X9: without shift, a key whose name contains a digit, a point, a slash
    or a minus sign, and is neither ["/"] nor ["-"] itself, is passed
    whole to [handleNumberInput]; while composing, its name becomes one
    more token. *)
Theorem keyDownHandler_key_containing_digit key s :
  matches isDigitDotSlashMinus key = true ->
  key <> lit "/" -> key <> lit "-" ->
  keyDownHandler evaluate false key s = handleNumberInput key s /\
  (inResultMode s = false ->
   tokens (keyDownHandler evaluate false key s) = tokens s ++ [str key]).
Proof.
  intros Hm Hslash Hminus.
  assert (H : keyDownHandler evaluate false key s = handleNumberInput key s).
  { unfold keyDownHandler. rewrite Hm.
    destruct (jsstring_eqb key (lit "/")) eqn:H1;
      [apply jsstring_eqb_eq in H1; contradiction|].
    destruct (jsstring_eqb key (lit "-")) eqn:H2;
      [apply jsstring_eqb_eq in H2; contradiction|].
    reflexivity. }
  split; [exact H|]. intros Hmode. rewrite H.
  unfold handleNumberInput. now rewrite Hmode.
Qed.

(** X10: with shift held, a key whose name contains none of [/ ( ) * +]
    leaves the session as it is; Backspace, Delete and [=] are such keys. *)
Theorem keyDownHandler_shift_ignores key s :
  matches isSlashOrParen key = false ->
  matches isSlashStarPlus key = false ->
  keyDownHandler evaluate true key s = s.
Proof.
  intros H1 H2. unfold keyDownHandler. now rewrite H1, H2.
Qed.

(** X11: an operator input right after a successful evaluation starts the
    new expression with the raw result string and the operator, clears the
    result and the error flag, and the next evaluator input is these two
    strings joined and translated. *)
Theorem operator_after_any_success s r op :
  evaluate (expressionParsed s) = Returned r ->
  let s' := handleOperationInput op (computeExpression evaluate s) in
  tokens s' = [str r; str op] /\
  resultTokens s' = [] /\
  inResultMode s' = false /\
  resultIsError s' = false /\
  expressionParsed s' = map translateGlyph (r ++ op).
Proof.
  intros He s'.
  assert (Ht : tokens s' = [str r; str op]).
  { subst s'. unfold handleOperationInput, resumeValue. handlers. now rewrite He. }
  split; [exact Ht|].
  rewrite expressionParsed_translate, Ht. simpl. rewrite app_nil_r.
  subst s'. unfold handleOperationInput. handlers. rewrite He. simpl.
  repeat split.
Qed.

(** X12: Clear does not forget the last good result. After Clear, any
    inputs without an evaluation, and then an evaluation that fails, an
    operator input resumes from the result computed before Clear. *)
Theorem operator_resumes_across_clear s r actions message op :
  previousNonErrorResult s = Some r ->
  forallb (fun a => negb (isComputeExpression a)) actions = true ->
  evaluate (expressionParsed (run evaluate (clearInput s) actions)) = Thrown message ->
  tokens (handleOperationInput op
            (computeExpression evaluate (run evaluate (clearInput s) actions))) =
  [str r; str op].
Proof.
  intros Hprev Hall He.
  pose proof (previousNonErrorResult_run (clearInput s) actions Hall) as Hp.
  change (previousNonErrorResult (clearInput s)) with (previousNonErrorResult s) in Hp.
  rewrite Hprev in Hp.
  unfold handleOperationInput, resumeValue, computeExpression. rewrite He.
  simpl. rewrite Hp. reflexivity.
Qed.

(** X13: what the display shows after an evaluation started with the error
    flag off. The expression line is unchanged; on success the result
    line is ["="] followed by the result in display form, in grey; on
    failure it is ["Error: "] and the message inside a text wrapper, in
    red. *)
Theorem render_after_evaluation s :
  resultIsError s = false ->
  let v := render (computeExpression evaluate s) in
  expressionLine v = expressionLine (render s) /\
  match evaluate (expressionParsed s) with
  | Returned r =>
      resultLine v = lit "=" ++ resultDisplay r /\
      resultColor v = lit "text-gray-600"
  | Thrown message =>
      resultLine v = lit "\text{Error: " ++ message ++ lit "}" /\
      resultColor v = lit "text-red-700"
  end.
Proof.
  intros Hflag v. subst v. split.
  - unfold render, DisplayArea. simpl. unfold displayExpression.
    now rewrite tokens_computeExpression.
  - unfold render, DisplayArea, displayResult, computeExpression.
    destruct (evaluate (expressionParsed s)) as [r|message]; simpl.
    + rewrite Hflag. unfold parseExpression. simpl. now rewrite app_nil_r.
    + unfold parseExpression. simpl. now rewrite app_nil_r.
Qed.

(** X14: every keypad button other than the two parentheses and AC has a
    key that does to every session what a click on the button does. *)
Theorem keypad_buttons_have_keys b :
  b <> BtnOpen -> b <> BtnClose -> b <> BtnAC ->
  exists shiftKey key, forall s,
    keyDownHandler evaluate shiftKey key s = onClick evaluate b s.
Proof.
  intros Ho Hc Ha. destruct b; try contradiction.
  - exists false, (lit "Backspace"). reflexivity.
  - exists false, (lit "1"). reflexivity.
  - exists false, (lit "2"). reflexivity.
  - exists false, (lit "3"). reflexivity.
  - exists true, (lit "+"). reflexivity.
  - exists false, (lit "4"). reflexivity.
  - exists false, (lit "5"). reflexivity.
  - exists false, (lit "6"). reflexivity.
  - exists false, (lit "-"). reflexivity.
  - exists false, (lit "7"). reflexivity.
  - exists false, (lit "8"). reflexivity.
  - exists false, (lit "9"). reflexivity.
  - exists true, (lit "*"). reflexivity.
  - exists false, (lit "0"). reflexivity.
  - exists false, (lit "."). reflexivity.
  - exists false, (lit "="). reflexivity.
  - exists false, (lit "/"). reflexivity.
Qed.

(** X15: no key does what AC does: on a session with at least two tokens,
    no key press gives the cleared session. *)
Theorem no_key_clears shiftKey key s :
  2 <= List.length (tokens s) ->
  keyDownHandler evaluate shiftKey key s <> clearInput s.
Proof.
  intros Hlen Heq.
  apply (f_equal (fun x => List.length (tokens x))) in Heq.
  change (List.length (tokens (clearInput s))) with 0 in Heq.
  destruct (keyDownHandler_cases shiftKey key s)
    as [H | [[x H] | [[x H] | [H | H]]]]; rewrite H in Heq; clear H.
  - lia.
  - unfold handleNumberInput in Heq. destruct (inResultMode s); simpl in Heq;
      [discriminate|]. rewrite length_app in Heq. simpl in Heq. lia.
  - unfold handleOperationInput in Heq. destruct (inResultMode s); simpl in Heq;
      [discriminate|]. rewrite length_app in Heq. simpl in Heq. lia.
  - simpl in Heq. rewrite removelast_firstn_len, length_firstn in Heq. lia.
  - rewrite tokens_computeExpression in Heq. lia.
Qed.

End Properties.

(** C7: the string given to the evaluator is the tokens joined without
    separator, with each multiplication glyph turned into [*], each
    division glyph into [/] and every other code unit kept; the state
    after [computeExpression] is fixed by, and fixes, what the evaluator
    does on that one string. *)
Theorem computeExpression_evaluator_input evaluate1 evaluate2 s :
  expressionParsed s =
    map translateGlyph (List.concat (map joinString (expression (expressionAndResult s)))) /\
  (computeExpression evaluate1 s = computeExpression evaluate2 s <->
   evaluate1 (expressionParsed s) = evaluate2 (expressionParsed s)).
Proof.
  split; [apply expressionParsed_translate|].
  unfold computeExpression. split.
  - destruct (evaluate1 (expressionParsed s)) as [r1|m1],
             (evaluate2 (expressionParsed s)) as [r2|m2];
      intros Heq.
    + apply (f_equal previousNonErrorResult) in Heq. simpl in Heq. congruence.
    + apply (f_equal (fun x => result (expressionAndResult x))) in Heq. discriminate.
    + apply (f_equal (fun x => result (expressionAndResult x))) in Heq. discriminate.
    + apply (f_equal (fun x => result (expressionAndResult x))) in Heq.
      simpl in Heq. injection Heq as Heq. congruence.
  - intros ->. reflexivity.
Qed.

(** ** The claims on concrete sessions *)

(** C9 (as stated, refuted): after 1, +, = the evaluator has thrown and
    [result] is one string, which is none of: empty, ["="] and a result,
    ["Error: "] and a message as two elements. *)
Lemma resultTokens_error_is_one_string :
  let s := run sampleEvaluate initialSession
             [NumberInput (lit "1"); OperationInput (lit "+"); ComputeExpression] in
  reachable sampleEvaluate s /\
  result (expressionAndResult s) =
    [lit "Error: Unexpected end of expression (char 3)"] /\
  ~ (result (expressionAndResult s) = [] \/
     (exists resultDisplayString,
        result (expressionAndResult s) = [lit "="; resultDisplayString]) \/
     (exists message,
        result (expressionAndResult s) = [lit "Error: "; message])).
Proof.
  intros s. split; [|split].
  - apply reachable_run, reachable_initial.
  - reflexivity.
  - intros [H | [[d H] | [m H]]]; discriminate H.
Qed.

Lemma backspace_keeps_resultIsError_witness :
  let s := run sampleEvaluate initialSession
             [NumberInput (lit "1"); OperationInput (lit "+")] in
  let s1 := backspace (computeExpression sampleEvaluate s) in
  let s2 := computeExpression sampleEvaluate s1 in
  sampleEvaluate (expressionParsed s) =
    Thrown (lit "Unexpected end of expression (char 3)") /\
  sampleEvaluate (expressionParsed s1) = Returned (lit "1") /\
  (resultIsError s1 = true /\ result (expressionAndResult s1) = []) /\
  (resultIsError s2 = true /\
   result (expressionAndResult s2) = [lit "="; resultDisplay (lit "1")]).
Proof.
  intros s s1 s2. split; [reflexivity|]. split; [reflexivity|].
  apply (@backspace_keeps_resultIsError sampleEvaluate s
           (lit "Unexpected end of expression (char 3)") (lit "1"));
    reflexivity.
Defined.

Lemma computeExpression_failure_witness :
  let s := run sampleEvaluate initialSession
             [NumberInput (lit "1"); OperationInput (lit "+")] in
  let s' := computeExpression sampleEvaluate s in
  sampleEvaluate (expressionParsed s) =
    Thrown (lit "Unexpected end of expression (char 3)") /\
  result (expressionAndResult s') =
    [lit "Error: " ++ lit "Unexpected end of expression (char 3)"] /\
  result (expressionAndResult s') <> [] /\
  resultIsError s' = true /\
  needsReset (expressionAndResult s') = true /\
  expression (expressionAndResult s') = expression (expressionAndResult s).
Proof.
  intros s s'. split; [reflexivity|].
  apply (@computeExpression_failure sampleEvaluate s
           (lit "Unexpected end of expression (char 3)")).
  reflexivity.
Defined.

Lemma operator_after_first_failure_witness :
  let s := run sampleEvaluate initialSession
             [NumberInput (lit "1"); OperationInput (lit "+"); ComputeExpression] in
  reachable sampleEvaluate s /\
  needsReset (expressionAndResult s) = true /\
  previousNonErrorResult s = None /\
  List.length (result (expressionAndResult s)) = 1 /\
  resumeValue s = undefined /\
  expression (expressionAndResult (handleOperationInput (lit "+") s)) =
    [undefined; str (lit "+")].
Proof.
  intros s.
  assert (Hreach : reachable sampleEvaluate s)
    by apply reachable_run, reachable_initial.
  split; [exact Hreach|]. split; [reflexivity|]. split; [reflexivity|].
  apply (@operator_after_first_failure sampleEvaluate s (lit "+") Hreach);
    reflexivity.
Defined.

Lemma operator_after_success_resumes_witness :
  sampleEvaluate (lit "2+2") = Returned (lit "4") /\
  let s := run sampleEvaluate initialSession
             [NumberInput (lit "2"); OperationInput (lit "+");
              NumberInput (lit "2"); ComputeExpression] in
  expression (expressionAndResult (step sampleEvaluate s (OperationInput (lit "+")))) =
    [str (lit "4"); str (lit "+")].
Proof.
  split; [reflexivity|]. intros s.
  apply (@operator_after_success_resumes sampleEvaluate). reflexivity.
Defined.

Lemma needsReset_iff_result_nonempty_witness :
  let s := run sampleEvaluate initialSession
             [NumberInput (lit "1"); OperationInput (lit "+"); ComputeExpression] in
  reachable sampleEvaluate s /\
  (needsReset (expressionAndResult s) = true <-> result (expressionAndResult s) <> []).
Proof.
  intros s.
  assert (Hreach : reachable sampleEvaluate s)
    by apply reachable_run, reachable_initial.
  split; [exact Hreach|].
  apply (@needsReset_iff_result_nonempty sampleEvaluate s Hreach).
Defined.

Lemma displayExpression_appends_witness :
  let actions := [NumberInput (lit "1"); NumberInput (lit "."); NumberInput (lit "5");
                  OperationInput [times]; OperationInput (lit "(");
                  NumberInput (lit "2"); OperationInput (lit "+");
                  NumberInput (lit "3"); NumberInput (lit ")")] in
  forallb isAppend actions = true /\
  displayExpression (run sampleEvaluate initialSession actions) =
    lit "1.5" ++ [times] ++ lit "(2+3)".
Proof.
  intros actions. split; [reflexivity|].
  apply (@displayExpression_appends sampleEvaluate actions). reflexivity.
Defined.

Lemma resultTokens_shape_witness :
  let s := run sampleEvaluate initialSession
             [NumberInput (lit "1"); OperationInput (lit "+"); ComputeExpression] in
  reachable sampleEvaluate s /\
  (result (expressionAndResult s) = [] \/
   (exists r, sampleEvaluate (expressionParsed s) = Returned r /\
              result (expressionAndResult s) = [lit "="; resultDisplay r]) \/
   (exists message, sampleEvaluate (expressionParsed s) = Thrown message /\
                    result (expressionAndResult s) = [lit "Error: " ++ message])).
Proof.
  intros s.
  assert (Hreach : reachable sampleEvaluate s)
    by apply reachable_run, reachable_initial.
  split; [exact Hreach|].
  apply (@resultTokens_shape sampleEvaluate s Hreach).
Defined.

Lemma parenthesis_keypad_and_keyboard_witness :
  let s := run sampleEvaluate initialSession
             [NumberInput (lit "2"); OperationInput (lit "+");
              NumberInput (lit "2"); ComputeExpression] in
  needsReset (expressionAndResult s) = true /\
  expression (expressionAndResult (onClick sampleEvaluate BtnOpen s)) =
    [str (lit "4"); str (lit "(")] /\
  expression (expressionAndResult (keyDownHandler sampleEvaluate true (lit "(") s)) =
    [str (lit "(")].
Proof.
  intros s. split; [reflexivity|].
  apply (@parenthesis_keypad_and_keyboard sampleEvaluate s). reflexivity.
Defined.

Lemma computeExpression_evaluator_input_witness :
  let s := run sampleEvaluate initialSession
             [NumberInput (lit "1"); OperationInput (lit "+")] in
  sampleEvaluate (expressionParsed s) = otherEvaluate (expressionParsed s) /\
  sampleEvaluate (lit "2+2") <> otherEvaluate (lit "2+2") /\
  computeExpression sampleEvaluate s = computeExpression otherEvaluate s.
Proof.
  intros s. split; [reflexivity|]. split; [intros H; cbv in H; discriminate H|].
  apply (proj2 (computeExpression_evaluator_input sampleEvaluate otherEvaluate s)).
  reflexivity.
Defined.

(** Two more sessions: the display glyphs reach the evaluator as [*] and
    [/], and a result made of letters is wrapped for text rendering. *)
Example glyph_session :
  let s := run sampleEvaluate initialSession
             [NumberInput (lit "1"); NumberInput (lit "."); NumberInput (lit "5");
              OperationInput [times]; OperationInput (lit "(");
              NumberInput (lit "2"); OperationInput (lit "+");
              NumberInput (lit "3"); OperationInput (lit ")")] in
  expressionParsed s = lit "1.5*(2+3)" /\
  displayResult (computeExpression sampleEvaluate s) = lit "=7.5".
Proof. split; reflexivity. Qed.

Example infinity_session :
  let s := run sampleEvaluate initialSession
             [NumberInput (lit "1"); OperationInput [divide];
              NumberInput (lit "0"); ComputeExpression] in
  result (expressionAndResult s) = [lit "="; lit "\text{Infinity}"] /\
  previousNonErrorResult s = Some (lit "Infinity") /\
  resultIsError s = false.
Proof. repeat split. Qed.

(** ** Further properties on concrete sessions *)

(** X16: the evaluator matters to one button and one key only. Any event
    other than a click on [=] or an unshifted [=] key gives the same
    state whatever the evaluator is. *)
Theorem only_equals_evaluates evaluate1 evaluate2 s e :
  e <> Click BtnEquals ->
  e <> KeyDown false (lit "=") ->
  handleEvent evaluate1 s e = handleEvent evaluate2 s e.
Proof.
  intros Hclick Hkey. destruct e as [b|shiftKey key]; simpl.
  - destruct b; try reflexivity. contradiction.
  - unfold keyDownHandler. destruct shiftKey; [reflexivity|].
    destruct (matches isDigitDotSlashMinus key); [reflexivity|].
    destruct (jsstring_eqb key (lit "Backspace") || jsstring_eqb key (lit "Delete"));
      [reflexivity|].
    destruct (jsstring_eqb key (lit "=")) eqn:He; [|reflexivity].
    apply jsstring_eqb_eq in He. subst key. contradiction.
Qed.

Lemma backspace_undoes_append_witness :
  let s := run sampleEvaluate initialSession
             [NumberInput (lit "1"); OperationInput (lit "+")] in
  reachable sampleEvaluate s /\
  needsReset (expressionAndResult s) = false /\
  backspace (handleNumberInput (lit "2") s) = s /\
  backspace (handleOperationInput (lit "2") s) = s.
Proof.
  intros s.
  assert (Hreach : reachable sampleEvaluate s)
    by apply reachable_run, reachable_initial.
  split; [exact Hreach|]. split; [reflexivity|].
  apply (@backspace_undoes_append sampleEvaluate s (lit "2") Hreach).
  reflexivity.
Defined.

Lemma error_payload_sets_resultIsError_witness :
  let s := run sampleEvaluate initialSession
             [NumberInput (lit "1"); OperationInput (lit "+"); ComputeExpression] in
  reachable sampleEvaluate s /\
  List.length (result (expressionAndResult s)) = 1 /\
  resultIsError s = true.
Proof.
  intros s.
  assert (Hreach : reachable sampleEvaluate s)
    by apply reachable_run, reachable_initial.
  split; [exact Hreach|]. split; [reflexivity|].
  apply (@error_payload_sets_resultIsError sampleEvaluate s Hreach).
  reflexivity.
Defined.

Lemma undefined_only_first_witness :
  let s := run sampleEvaluate initialSession
             [NumberInput (lit "1"); OperationInput (lit "+"); ComputeExpression;
              OperationInput (lit "+"); NumberInput (lit "2")] in
  reachable sampleEvaluate s /\
  expression (expressionAndResult s) = [undefined; str (lit "+"); str (lit "2")] /\
  forallb isString (tl (expression (expressionAndResult s))) = true.
Proof.
  intros s.
  assert (Hreach : reachable sampleEvaluate s)
    by apply reachable_run, reachable_initial.
  split; [exact Hreach|]. split; [reflexivity|].
  apply (@undefined_only_first sampleEvaluate s Hreach).
Defined.

Lemma resultIsError_exact_without_backspace_witness :
  let actions := [NumberInput (lit "1"); OperationInput (lit "+"); ComputeExpression;
                  NumberInput (lit "1"); ComputeExpression] in
  let s := run sampleEvaluate initialSession actions in
  forallb (fun a => negb (isBackspace a)) actions = true /\
  result (expressionAndResult s) = [lit "="; lit "1"] /\
  (resultIsError s = true <->
   exists message, sampleEvaluate (expressionParsed s) = Thrown message /\
                   result (expressionAndResult s) = [lit "Error: " ++ message]).
Proof.
  intros actions s. split; [reflexivity|]. split; [reflexivity|].
  apply (@resultIsError_exact_without_backspace sampleEvaluate actions).
  reflexivity.
Defined.

Lemma uiReachable_reachable_witness :
  let s := handleEvent sampleEvaluate
             (handleEvent sampleEvaluate
                (handleEvent sampleEvaluate initialSession (Click Btn1))
                (KeyDown true (lit "+")))
             (KeyDown false (lit "=")) in
  uiReachable sampleEvaluate s /\ reachable sampleEvaluate s.
Proof.
  intros s.
  assert (Hui : uiReachable sampleEvaluate s) by (repeat constructor).
  split; [exact Hui|].
  apply (@uiReachable_reachable sampleEvaluate s Hui).
Defined.

Lemma keyDownHandler_key_containing_digit_witness :
  let s := run sampleEvaluate initialSession [NumberInput (lit "1")] in
  matches isDigitDotSlashMinus (lit "F5") = true /\
  lit "F5" <> lit "/" /\ lit "F5" <> lit "-" /\
  keyDownHandler sampleEvaluate false (lit "F5") s = handleNumberInput (lit "F5") s.
Proof.
  intros s. split; [reflexivity|].
  assert (H1 : lit "F5" <> lit "/") by discriminate.
  assert (H2 : lit "F5" <> lit "-") by discriminate.
  split; [exact H1|]. split; [exact H2|].
  apply (@keyDownHandler_key_containing_digit sampleEvaluate (lit "F5") s eq_refl H1 H2).
Defined.

Lemma keyDownHandler_shift_ignores_witness :
  let s := run sampleEvaluate initialSession
             [NumberInput (lit "1"); OperationInput (lit "+")] in
  matches isSlashOrParen (lit "Backspace") = false /\
  matches isSlashStarPlus (lit "Backspace") = false /\
  keyDownHandler sampleEvaluate true (lit "Backspace") s = s.
Proof.
  intros s. split; [reflexivity|]. split; [reflexivity|].
  apply (@keyDownHandler_shift_ignores sampleEvaluate (lit "Backspace") s);
    reflexivity.
Defined.

Lemma operator_after_any_success_witness :
  let s := run sampleEvaluate initialSession
             [NumberInput (lit "1"); OperationInput [divide]; NumberInput (lit "0")] in
  sampleEvaluate (expressionParsed s) = Returned (lit "Infinity") /\
  result (expressionAndResult (computeExpression sampleEvaluate s)) =
    [lit "="; lit "\text{Infinity}"] /\
  expression (expressionAndResult
    (handleOperationInput [times] (computeExpression sampleEvaluate s))) =
    [str (lit "Infinity"); str [times]].
Proof.
  intros s. split; [reflexivity|]. split; [reflexivity|].
  apply (@operator_after_any_success sampleEvaluate s (lit "Infinity") [times]).
  reflexivity.
Defined.

Lemma operator_resumes_across_clear_witness :
  let s := run sampleEvaluate initialSession
             [NumberInput (lit "2"); OperationInput (lit "+");
              NumberInput (lit "2"); ComputeExpression] in
  let actions := [NumberInput (lit "1"); OperationInput (lit "+")] in
  previousNonErrorResult s = Some (lit "4") /\
  forallb (fun a => negb (isComputeExpression a)) actions = true /\
  sampleEvaluate (expressionParsed (run sampleEvaluate (clearInput s) actions)) =
    Thrown (lit "Unexpected end of expression (char 3)") /\
  expression (expressionAndResult
    (handleOperationInput (lit "-")
       (computeExpression sampleEvaluate (run sampleEvaluate (clearInput s) actions)))) =
    [str (lit "4"); str (lit "-")].
Proof.
  intros s actions. split; [reflexivity|]. split; [reflexivity|]. split; [reflexivity|].
  apply (@operator_resumes_across_clear sampleEvaluate s (lit "4") actions
           (lit "Unexpected end of expression (char 3)") (lit "-"));
    reflexivity.
Defined.

Lemma render_after_evaluation_witness :
  let s := run sampleEvaluate initialSession
             [NumberInput (lit "1"); OperationInput (lit "+")] in
  let v := render (computeExpression sampleEvaluate s) in
  resultIsError s = false /\
  expressionLine v = lit "1+" /\
  resultLine v = lit "\text{Error: Unexpected end of expression (char 3)}" /\
  resultColor v = lit "text-red-700".
Proof.
  intros s v. split; [reflexivity|].
  pose proof (@render_after_evaluation sampleEvaluate s eq_refl) as H.
  simpl in H. destruct H as [H1 [H2 H3]].
  split; [exact H1|]. split; [exact H2|exact H3].
Defined.

Lemma keypad_buttons_have_keys_witness :
  BtnTimes <> BtnOpen /\ BtnTimes <> BtnClose /\ BtnTimes <> BtnAC /\
  exists shiftKey key, forall s,
    keyDownHandler sampleEvaluate shiftKey key s = onClick sampleEvaluate BtnTimes s.
Proof.
  assert (H1 : BtnTimes <> BtnOpen) by discriminate.
  assert (H2 : BtnTimes <> BtnClose) by discriminate.
  assert (H3 : BtnTimes <> BtnAC) by discriminate.
  split; [exact H1|]. split; [exact H2|]. split; [exact H3|].
  apply (@keypad_buttons_have_keys sampleEvaluate BtnTimes H1 H2 H3).
Defined.

Lemma no_key_clears_witness :
  let s := run sampleEvaluate initialSession
             [NumberInput (lit "1"); OperationInput (lit "+")] in
  2 <= List.length (expression (expressionAndResult s)) /\
  keyDownHandler sampleEvaluate false (lit "Delete") s <> clearInput s.
Proof.
  intros s.
  assert (Hlen : 2 <= List.length (expression (expressionAndResult s)))
    by (simpl; lia).
  split; [exact Hlen|].
  apply (@no_key_clears sampleEvaluate false (lit "Delete") s Hlen).
Defined.

Lemma only_equals_evaluates_witness :
  let s := run sampleEvaluate initialSession
             [NumberInput (lit "2"); OperationInput (lit "+"); NumberInput (lit "2")] in
  KeyDown true (lit "=") <> Click BtnEquals /\
  KeyDown true (lit "=") <> KeyDown false (lit "=") /\
  handleEvent sampleEvaluate s (KeyDown true (lit "=")) =
  handleEvent otherEvaluate s (KeyDown true (lit "=")).
Proof.
  intros s.
  assert (H1 : KeyDown true (lit "=") <> Click BtnEquals) by discriminate.
  assert (H2 : KeyDown true (lit "=") <> KeyDown false (lit "=")) by discriminate.
  split; [exact H1|]. split; [exact H2|].
  apply (@only_equals_evaluates sampleEvaluate otherEvaluate s _ H1 H2).
Defined.
